(** * dummy-http-client: a shallow embedding of [src/index.ts]

    The client is one linear pipeline: the caller's options are spread over
    the defaults, the URL, body and headers of the request are built, the
    platform [fetch] is called, and its promise chain is raced against a
    timer.  Values that the source leaves untyped ([unknown], thrown object
    literals, resolved values) are modelled as JavaScript values; promises are
    modelled by the value they settle with, and [Promise.race] by a small
    state machine driven by the order in which the two promises settle. *)

From Stdlib Require Import String Ascii ZArith NArith List Bool Lia.
From Stdlib Require Import DecimalString.
Import ListNotations.

Local Open Scope string_scope.
Local Open Scope Z_scope.

(** ** JavaScript values *)

(** Numbers are restricted to the integers and [NaN]; objects are the ordered
    list of their own enumerable properties.  [JError] is an instance of the
    built-in [Error] class (its [name] is inherited from the prototype),
    [JFormData] and [JBlob] are opaque platform containers. *)
#[warnings="-register-all"]
Inductive JsValue : Type :=
| JUndefined
| JNull
| JBool (b : bool)
| JNum (n : Z)
| JNaN
| JStr (s : string)
| JObj (fields : list (string * JsValue))
| JError (message : string)
| JFormData (handle : nat)
| JBlob (handle : nat).

Definition Record_ : Type := list (string * JsValue).

(** [!v] is [negb (truthy v)]. *)
Definition truthy (v : JsValue) : bool :=
  match v with
  | JUndefined | JNull | JNaN => false
  | JBool b => b
  | JNum n => negb (n =? 0)
  | JStr s => negb (s =? "")%string
  | JObj _ | JError _ | JFormData _ | JBlob _ => true
  end.

(** [s === v] for a primitive string [s]: no coercion, so only a string with
    the same characters is equal. *)
Definition strict_eq_str (s : string) (v : JsValue) : bool :=
  match v with
  | JStr t => (s =? t)%string
  | _ => false
  end.

Fixpoint lookup (k : string) (o : Record_) : option JsValue :=
  match o with
  | [] => None
  | (k', v) :: rest => if (k =? k')%string then Some v else lookup k rest
  end.

(** Property assignment inside an object literal: an existing key keeps its
    position and takes the new value, a new key goes last. *)
Fixpoint set_prop (k : string) (v : JsValue) (o : Record_) : Record_ :=
  match o with
  | [] => [(k, v)]
  | (k', v') :: rest =>
      if (k =? k')%string then (k, v) :: rest else (k', v') :: set_prop k v rest
  end.

(** [{...a, ...b}] *)
Definition spread (a b : Record_) : Record_ :=
  fold_left (fun acc kv => set_prop (fst kv) (snd kv) acc) b a.

(** [v.k] on a value that is neither [null] nor [undefined]. *)
Definition get_prop (v : JsValue) (k : string) : JsValue :=
  match v with
  | JObj fields =>
      match lookup k fields with
      | Some x => x
      | None => JUndefined
      end
  | JError message =>
      if (k =? "name")%string then JStr "Error"
      else if (k =? "message")%string then JStr message
      else JUndefined
  | _ => JUndefined
  end.

(** [instanceof FormData] *)
Definition instanceof_FormData (v : JsValue) : bool :=
  match v with
  | JFormData _ => true
  | _ => false
  end.

(** ** Strings *)

Definition upper_ascii (c : ascii) : ascii :=
  let n := N_of_ascii c in
  if ((97 <=? n) && (n <=? 122))%N then ascii_of_N (n - 32) else c.

(** [String.prototype.toUpperCase] on ASCII text. *)
Fixpoint toUpperCase (s : string) : string :=
  match s with
  | EmptyString => EmptyString
  | String c rest => String (upper_ascii c) (toUpperCase rest)
  end.

(** ** Completions and settled promises *)

(** A synchronous computation either returns or throws. *)
Inductive Completion (A : Type) : Type :=
| Return (a : A)
| Throw (e : JsValue).
Arguments Return {A} a.
Arguments Throw {A} e.

Definition bind {A B : Type} (c : Completion A) (k : A -> Completion B)
  : Completion B :=
  match c with
  | Return a => k a
  | Throw e => Throw e
  end.

Notation "x <- c ;; k" := (bind c (fun x => k))
  (at level 61, c at next level, right associativity).

(** A settled promise. *)
Inductive Settled (A : Type) : Type :=
| Resolved (a : A)
| Rejected (e : JsValue).
Arguments Resolved {A} a.
Arguments Rejected {A} e.

(** [p.then(f)] where [f] may return a promise or throw. *)
Definition then_ {A B : Type} (p : Settled A) (f : A -> Completion (Settled B))
  : Settled B :=
  match p with
  | Resolved a =>
      match f a with
      | Return q => q
      | Throw e => Rejected e
      end
  | Rejected e => Rejected e
  end.

(** [p.catch(f)] *)
Definition catch_ {A : Type} (p : Settled A) (f : JsValue -> Completion (Settled A))
  : Settled A :=
  match p with
  | Resolved a => Resolved a
  | Rejected e =>
      match f e with
      | Return q => q
      | Throw e' => Rejected e'
      end
  end.

(** [Promise.all([Promise.resolve(a), p])] *)
Definition all2 {A B : Type} (a : A) (p : Settled B) : Settled (A * B) :=
  match p with
  | Resolved b => Resolved (a, b)
  | Rejected e => Rejected e
  end.

(** ** Reference codecs

    [JSON.stringify] and the query-string codec [qs.stringify] are external
    to the client; the development below is parametric in both.  The two
    functions here are small executable stand-ins (atoms and mappings,
    unreserved characters only) used to run the model on concrete inputs. *)

Definition decimal (n : Z) : string := NilZero.string_of_int (Z.to_int n).

Definition dquote : string := String (ascii_of_nat 34) EmptyString.

Fixpoint join (sep : string) (parts : list string) : string :=
  match parts with
  | [] => ""
  | [p] => p
  | p :: rest => p ++ sep ++ join sep rest
  end.

Fixpoint json_text (v : JsValue) : string :=
  match v with
  | JUndefined | JNull | JNaN => "null"
  | JBool true => "true"
  | JBool false => "false"
  | JNum n => decimal n
  | JStr s => dquote ++ s ++ dquote
  | JObj fields =>
      "{" ++ join "," (map (fun kv => dquote ++ fst kv ++ dquote ++ ":" ++ json_text (snd kv)) fields) ++ "}"
  | JError _ | JFormData _ | JBlob _ => "{}"
  end.

Definition qs_atom (v : JsValue) : string :=
  match v with
  | JBool true => "true"
  | JBool false => "false"
  | JNum n => decimal n
  | JStr s => s
  | _ => ""
  end.

Definition qs_text (v : JsValue) : string :=
  match v with
  | JObj fields => join "&" (map (fun kv => fst kv ++ "=" ++ qs_atom (snd kv)) fields)
  | _ => ""
  end.

(** ** Options, responses and the transport *)

(** [RequestOptions] as the caller writes it: every field is optional, and
    [None] is a property the caller left out.  (A property written out with
    the value [undefined] is not modelled; the [!] assertions of [send]
    assume there is none.) *)
Module RequestOptions.
Record t : Type := make {
  headers : option Record_;
  params : option Record_;
  observe : option string;
  contentType : option string;
  responseType : option string;
  timeout : option Z
}.

Definition empty : t := make None None None None None None.
End RequestOptions.

(** The options [send] works with, where each [options.f!] is present.
    [observe], [contentType] and [responseType] are the strings the code
    compares against, so values outside the declared unions can be stated. *)
Module Merged.
Record t : Type := make {
  headers : Record_;
  params : Record_;
  observe : string;
  contentType : string;
  responseType : string;
  timeout : Z
}.
End Merged.

Inductive HttpMethod : Type := M_get | M_post | M_put | M_delete | M_patch.

Definition HttpMethod_str (m : HttpMethod) : string :=
  match m with
  | M_get => "get"
  | M_post => "post"
  | M_put => "put"
  | M_delete => "delete"
  | M_patch => "patch"
  end.

(** The platform [Response]: its metadata and what each body reader's promise
    settles with. *)
Module Response.
Record t : Type := make {
  headers : JsValue;
  ok : bool;
  redirected : bool;
  status : Z;
  type : string;
  url : string;
  json : Settled JsValue;
  text : Settled JsValue;
  blob : Settled JsValue
}.
End Response.

(** The arguments of one [fetch(input, init)] call. *)
Record FetchCall : Type := {
  fetch_input : string;
  fetch_method : string;
  fetch_body : JsValue;
  fetch_headers : Record_
}.

(** A timer promise: it rejects with [timer_reason] once [timer_delay] has
    elapsed. *)
Record Timer : Type := {
  timer_delay : Z;
  timer_reason : JsValue
}.

(** [Promise.race([chain, timer])] after [fetch] was called with
    [race_fetch].  [race_chain] maps what [fetch] settles with to what the
    whole [then]/[catch] chain settles with; [race_reads_body] tells whether
    the chain, once [fetch] has settled, is left waiting for a body reader of
    the response. *)
Record Race : Type := {
  race_fetch : FetchCall;
  race_chain : Settled Response.t -> Settled JsValue;
  race_reads_body : Settled Response.t -> bool;
  race_timer : Timer
}.

(** What the event loop delivers to one call: the promise of [fetch]
    settles, the body reader started by the chain settles (with the result
    recorded in the response), the timer fires.  The order is the
    environment's: it depends on the network and on the delay of the
    timer. *)
Inductive Event : Type :=
| FetchSettled (fetched : Settled Response.t)
| BodyRead
| TimerFired.

(** The promise returned by [Promise.race]: pending, with the settlement the
    chain will take once the body has been read when the response has already
    arrived, or settled. *)
Inductive PromiseState : Type :=
| Pending (reading : option (Settled JsValue))
| Done (s : Settled JsValue).

(** A promise settles once; [Promise.race] takes the first settlement of the
    chain or of the timer.  An event that nothing waits for is ignored. *)
Definition race_step (r : Race) (st : PromiseState) (ev : Event) : PromiseState :=
  match st with
  | Done s => Done s
  | Pending reading =>
      match ev, reading with
      | TimerFired, _ => Done (Rejected (timer_reason (race_timer r)))
      | FetchSettled fetched, None =>
          if race_reads_body r fetched then Pending (Some (race_chain r fetched))
          else Done (race_chain r fetched)
      | BodyRead, Some s => Done s
      | _, _ => Pending reading
      end
  end.

Definition run_race (r : Race) (events : list Event) : PromiseState :=
  fold_left (race_step r) events (Pending None).

(** What the caller of a public operation observes: an exception thrown by
    the call itself, or the state of the returned promise. *)
Definition observe_call (c : Completion Race) (events : list Event)
  : Completion PromiseState :=
  r <- c ;; Return (run_race r events).

Definition strict_eq_num (n : Z) (v : JsValue) : bool :=
  match v with
  | JNum m => n =? m
  | _ => false
  end.

(** [a || b] *)
Definition js_or (a b : JsValue) : JsValue := if truthy a then a else b.

(** A property of [{...defaults, ...options}]: the caller's own property when
    there is one, the default otherwise. *)
Definition own_or {A : Type} (default : A) (own : option A) : A :=
  match own with
  | Some x => x
  | None => default
  end.

(** [{ ...defaults, ...options }] *)
Definition spreadOptions (defaults : Merged.t) (options : RequestOptions.t) : Merged.t :=
  Merged.make
    (own_or (Merged.headers defaults) (RequestOptions.headers options))
    (own_or (Merged.params defaults) (RequestOptions.params options))
    (own_or (Merged.observe defaults) (RequestOptions.observe options))
    (own_or (Merged.contentType defaults) (RequestOptions.contentType options))
    (own_or (Merged.responseType defaults) (RequestOptions.responseType options))
    (own_or (Merged.timeout defaults) (RequestOptions.timeout options)).

Definition defaultOptions : Merged.t :=
  Merged.make [] [] "body" "json" "json" 30000.

Definition timeout (delay : Z) : Timer :=
  {| timer_delay := delay;
     timer_reason := JObj [("name", JStr "timeout"); ("message", JStr "timeout")] |}.

Definition mergeHeaders (headers : Record_) (contentType : string) : Record_ :=
  let contentTypeHeader := "plain/text" in
  let contentTypeHeader :=
    if (contentType =? "json")%string then "application/json" else contentTypeHeader in
  let contentTypeHeader :=
    if (contentType =? "multipart")%string then "multipart/form-data" else contentTypeHeader in
  let contentTypeHeader :=
    if (contentType =? "urlencoded")%string then "application/x-www-urlencoded"
    else contentTypeHeader in
  set_prop "Content-Type" (JStr contentTypeHeader) (spread [] headers).

Definition parseResponseBody (responseType : string) (response : Response.t)
  : Completion (Settled JsValue) :=
  if (responseType =? "json")%string then Return (Response.json response)
  else if (responseType =? "text")%string then Return (Response.text response)
  else if (responseType =? "blob")%string then Return (Response.blob response)
  else Throw (JError ("unknown responseType: " ++ responseType)).

(** The object literal [baseResponse] of [send]. *)
Definition baseResponse (response : Response.t) : Record_ :=
  [ ("headers", Response.headers response);
    ("ok", JBool (Response.ok response));
    ("redirected", JBool (Response.redirected response));
    ("status", JNum (Response.status response));
    ("type", JStr (Response.type response));
    ("url", JStr (Response.url response)) ].

(** After [fetch] resolved, the first [then] callback leaves the chain
    waiting for the promise of a body reader, unless [parseResponseBody]
    throws; after [fetch] rejected, nothing is read. *)
Definition reads_body (options : Merged.t) (fetched : Settled Response.t) : bool :=
  match fetched with
  | Resolved response =>
      match parseResponseBody (Merged.responseType options) response with
      | Return _ => true
      | Throw _ => false
      end
  | Rejected _ => false
  end.

(** The [then]/[then]/[catch] chain hanging off [fetch(...)] in [send]. *)
Definition send_chain (options : Merged.t) (body : JsValue)
    (fetched : Settled Response.t) : Settled JsValue :=
  catch_
    (then_
       (then_ fetched (fun response =>
          let baseResponse := baseResponse response in
          parsed <- parseResponseBody (Merged.responseType options) response ;;
          Return (all2 baseResponse parsed)))
       (fun '(baseResponse, data) =>
          if negb (strict_eq_num 200 (get_prop (JObj baseResponse) "status")) then
            Throw (JObj (set_prop "error" data
                           (set_prop "name" (JStr "httpErrorResponse")
                              (spread [] baseResponse))))
          else if strict_eq_str (Merged.observe options) body then
            Return (Resolved data)
          else
            Return (Resolved (JObj (set_prop "body" data (spread [] baseResponse))))))
    (fun err =>
       if truthy err && strict_eq_str "httpErrorResponse" (get_prop err "name") then
         Throw err
       else
         Throw (JObj [("name", JStr "networkError"); ("error", err)])).

(** ** Sample data *)

Definition sample_url : string := "http://example.test/items".

(** A response whose three body readers succeed. *)
Definition sample_response (status : Z) : Response.t :=
  Response.make (JObj [("content-type", JStr "application/json")])
    ((200 <=? status) && (status <=? 299)) false status "basic" sample_url
    (Resolved (JObj [("id", JNum 7)]))
    (Resolved (JStr "{id:7}"))
    (Resolved (JBlob 0)).

(** The rejection reason of the timer in [timeout]. *)
Definition timeout_envelope : JsValue :=
  JObj [("name", JStr "timeout"); ("message", JStr "timeout")].

(** The three kinds of rejection a caller is meant to branch on, read off the
    [name] property. *)
Inductive ErrorKind : Type := K_timeout | K_httpErrorResponse | K_networkError.

Definition classify (e : JsValue) : option ErrorKind :=
  let name := get_prop e "name" in
  if strict_eq_str "timeout" name then Some K_timeout
  else if strict_eq_str "httpErrorResponse" name then Some K_httpErrorResponse
  else if strict_eq_str "networkError" name then Some K_networkError
  else None.

(** Size of a value, to tell an object from its own properties. *)
Fixpoint js_size (v : JsValue) : nat :=
  match v with
  | JObj fields => S (list_sum (map (fun kv => js_size (snd kv)) fields))
  | _ => 1%nat
  end.

Definition known_contentType (c : string) : bool :=
  existsb (String.eqb c) ["json"; "text"; "multipart"; "urlencoded"].

Definition known_responseType (c : string) : bool :=
  existsb (String.eqb c) ["text"; "json"; "blob"].

Section Client.

(** [JSON.stringify] and [qs.stringify], on the payloads of the model,
    which they serialise to a string: [JsValue] has no BigInt, function or
    cyclic object, on which the real functions throw or return
    [undefined]. *)
Variable JSON_stringify : JsValue -> string.
Variable qs_stringify : JsValue -> string.

Definition combineQueryStrings (url : string) (params : Record_) : string :=
  if (length (map fst params) =? 0)%nat then url
  else url ++ "?" ++ qs_stringify (JObj params).

Definition parseRequestBody (contentType : string) (body : JsValue)
  : Completion JsValue :=
  if negb (truthy body) then Return JNull
  else if (contentType =? "text")%string then Return (js_or body (JStr ""))
  else if (contentType =? "json")%string then Return (JStr (JSON_stringify body))
  else if (contentType =? "multipart")%string then
    if negb (instanceof_FormData body) then
      Throw (JError "require a FormData instance when content type is multipart")
    else Return body
  else if (contentType =? "urlencoded")%string then Return (JStr (qs_stringify body))
  else Throw (JError ("unknown contentType: " ++ contentType)).

(** [send]: the arguments of [fetch] are evaluated first (an exception
    there leaves [send] before [fetch] is called), then the chain is
    attached and the timer is started. *)
Definition send (method : HttpMethod) (url : string) (options : Merged.t)
    (body : JsValue) : Completion Race :=
  let input := combineQueryStrings url (Merged.params options) in
  let init_method := toUpperCase (HttpMethod_str method) in
  init_body <- parseRequestBody (Merged.contentType options) body ;;
  let init_headers := mergeHeaders (Merged.headers options) (Merged.contentType options) in
  Return {| race_fetch := {| fetch_input := input;
                             fetch_method := init_method;
                             fetch_body := init_body;
                             fetch_headers := init_headers |};
            race_chain := send_chain options body;
            race_reads_body := reads_body options;
            race_timer := timeout (Merged.timeout options) |}.

(** The methods of [DummyHttpClient]. *)
Definition get (url : string) (options : RequestOptions.t) : Completion Race :=
  send M_get url (spreadOptions defaultOptions options) JNull.

Definition delete (url : string) (options : RequestOptions.t) : Completion Race :=
  send M_delete url (spreadOptions defaultOptions options) JNull.

Definition post (url : string) (body : JsValue) (options : RequestOptions.t)
  : Completion Race :=
  send M_post url (spreadOptions defaultOptions options) body.

Definition put (url : string) (body : JsValue) (options : RequestOptions.t)
  : Completion Race :=
  send M_put url (spreadOptions defaultOptions options) body.

Definition patch (url : string) (body : JsValue) (options : RequestOptions.t)
  : Completion Race :=
  send M_put url (spreadOptions defaultOptions options) body.

(** * Properties *)

(** ** Values *)

Lemma strict_eq_str_true (s : string) (v : JsValue) :
  strict_eq_str s v = true -> v = JStr s.
Proof.
  destruct v; simpl; try discriminate.
  intros H. apply String.eqb_eq in H. now subst.
Qed.

Lemma js_size_fields_app (a b : Record_) :
  list_sum (map (fun kv => js_size (snd kv)) (a ++ b)) =
  (list_sum (map (fun kv => js_size (snd kv)) a) +
   list_sum (map (fun kv => js_size (snd kv)) b))%nat.
Proof. now rewrite map_app, list_sum_app. Qed.

(** An object is never one of its own property values. *)
Lemma obj_neq_last_prop (o : Record_) (k : string) (v : JsValue) :
  JObj (o ++ [(k, v)]) <> v.
Proof.
  intros H. apply (f_equal js_size) in H. simpl in H.
  rewrite js_size_fields_app in H. simpl in H. lia.
Qed.

(** ** The race *)

(** A settled promise stays as it is whatever is delivered afterwards. *)
Lemma race_settled_stable (r : Race) (events : list Event) (s : Settled JsValue) :
  fold_left (race_step r) events (Done s) = Done s.
Proof. induction events as [| ev events IH]; simpl; auto. Qed.

Lemma run_race_app (r : Race) (pre events : list Event) :
  run_race r (pre ++ events) = fold_left (race_step r) events (run_race r pre).
Proof. unfold run_race. apply fold_left_app. Qed.

(** While the race is pending, the timer decides it. *)
Lemma race_timer_wins (r : Race) (reading : option (Settled JsValue))
    (events : list Event) :
  fold_left (race_step r) (TimerFired :: events) (Pending reading)
  = Done (Rejected (timer_reason (race_timer r))).
Proof. simpl. apply race_settled_stable. Qed.

(** A response that arrives and whose body is then read settles the race as
    the chain settles. *)
Lemma race_response_then_body (r : Race) (response : Response.t)
    (events : list Event) :
  race_reads_body r (Resolved response) = true ->
  run_race r (FetchSettled (Resolved response) :: BodyRead :: events)
  = Done (race_chain r (Resolved response)).
Proof.
  intros H. unfold run_race. simpl. rewrite H. apply race_settled_stable.
Qed.

(** When nothing is left to read, the settlement of [fetch] settles the
    race. *)
Lemma race_fetch_settles (r : Race) (fetched : Settled Response.t)
    (events : list Event) :
  race_reads_body r fetched = false ->
  run_race r (FetchSettled fetched :: events) = Done (race_chain r fetched).
Proof.
  intros H. unfold run_race. simpl. rewrite H. apply race_settled_stable.
Qed.

(** Whatever the race settles with is the reason of the timer or what the
    chain makes of a settlement of [fetch] that was delivered. *)
Lemma race_done_origin (r : Race) (events : list Event) (st : PromiseState)
    (s : Settled JsValue) :
  fold_left (race_step r) events st = Done s ->
  st = Done s \/
  st = Pending (Some s) \/
  s = Rejected (timer_reason (race_timer r)) \/
  exists fetched, In (FetchSettled fetched) events /\ race_chain r fetched = s.
Proof.
  revert st. induction events as [| ev events IH]; intros st H.
  - left. exact H.
  - simpl in H. apply IH in H.
    destruct H as [H | [H | [H | (fetched & Hin & Hc)]]].
    + destruct st as [reading | s0]; [| left; exact H].
      destruct ev as [fetched | |]; simpl in H.
      * destruct reading; [discriminate |].
        destruct (race_reads_body r fetched); [discriminate |].
        injection H as <-. right. right. right. exists fetched. simpl. auto.
      * destruct reading as [s0 |]; [| discriminate].
        injection H as <-. right. left. reflexivity.
      * injection H as <-. right. right. left. reflexivity.
    + destruct st as [reading | s0]; [| discriminate].
      destruct ev as [fetched | |]; simpl in H.
      * destruct reading as [s0 |]; [right; left; exact H |].
        destruct (race_reads_body r fetched); [| discriminate].
        injection H as <-. right. right. right. exists fetched. simpl. auto.
      * destruct reading; [discriminate | discriminate].
      * discriminate.
    + right. right. left. exact H.
    + right. right. right. exists fetched. simpl. auto.
Qed.

Lemma run_race_done_origin (r : Race) (events : list Event) (s : Settled JsValue) :
  run_race r events = Done s ->
  s = Rejected (timer_reason (race_timer r)) \/
  exists fetched, In (FetchSettled fetched) events /\ race_chain r fetched = s.
Proof.
  intros H. apply race_done_origin in H.
  destruct H as [H | [H | H]]; [discriminate | discriminate | exact H].
Qed.

(** ** The promise chain of [send] *)

Lemma parseResponseBody_unknown (responseType : string) (response : Response.t) :
  known_responseType responseType = false ->
  parseResponseBody responseType response =
    Throw (JError ("unknown responseType: " ++ responseType)).
Proof.
  unfold known_responseType. simpl. intros H.
  repeat (apply orb_false_iff in H; destruct H as [? H]).
  unfold parseResponseBody.
  destruct (responseType =? "json")%string; [discriminate |].
  destruct (responseType =? "text")%string; [discriminate |].
  destruct (responseType =? "blob")%string; [discriminate |].
  reflexivity.
Qed.

(** What the chain settles with once the response has arrived and its body
    has been read. *)
Lemma send_chain_parsed (options : Merged.t) (body : JsValue)
    (response : Response.t) (data : JsValue) :
  parseResponseBody (Merged.responseType options) response = Return (Resolved data) ->
  send_chain options body (Resolved response) =
    if Response.status response =? 200 then
      if strict_eq_str (Merged.observe options) body then Resolved data
      else Resolved (JObj (baseResponse response ++ [("body", data)]))
    else
      Rejected (JObj (baseResponse response ++
                        [("name", JStr "httpErrorResponse"); ("error", data)])).
Proof.
  intros Hparse. unfold send_chain. cbn -[Z.eqb]. rewrite Hparse. cbn -[Z.eqb].
  rewrite (Z.eqb_sym 200).
  destruct (Response.status response =? 200); simpl.
  - destruct (strict_eq_str (Merged.observe options) body); reflexivity.
  - reflexivity.
Qed.

(** An unknown response type surfaces only after the response has arrived,
    wrapped as a network error. *)
Lemma send_chain_unknown_responseType (options : Merged.t) (body : JsValue)
    (response : Response.t) :
  known_responseType (Merged.responseType options) = false ->
  send_chain options body (Resolved response) =
    Rejected (JObj [("name", JStr "networkError");
                    ("error", JError ("unknown responseType: " ++ Merged.responseType options))]).
Proof.
  intros H. unfold send_chain. simpl.
  rewrite (parseResponseBody_unknown _ response H). reflexivity.
Qed.

(** Every rejection of the chain went through its [catch] handler. *)
Lemma send_chain_rejected (options : Merged.t) (body : JsValue)
    (fetched : Settled Response.t) (e : JsValue) :
  send_chain options body fetched = Rejected e ->
  get_prop e "name" = JStr "httpErrorResponse" \/
  exists err, e = JObj [("name", JStr "networkError"); ("error", err)].
Proof.
  unfold send_chain.
  match goal with |- catch_ ?p _ = _ -> _ => generalize p end.
  intros inner. destruct inner as [v | err]; simpl; [discriminate |].
  destruct (truthy err && strict_eq_str "httpErrorResponse" (get_prop err "name")) eqn:Hc.
  - intros H. injection H as <-. left.
    apply andb_true_iff in Hc. destruct Hc as [_ Hc].
    now apply strict_eq_str_true in Hc.
  - intros H. injection H as <-. right. now exists err.
Qed.

Lemma send_chain_rejected_classified (options : Merged.t) (body : JsValue)
    (fetched : Settled Response.t) (e : JsValue) :
  send_chain options body fetched = Rejected e ->
  classify e = Some K_httpErrorResponse \/ classify e = Some K_networkError.
Proof.
  intros H. apply send_chain_rejected in H. destruct H as [H | [err ->]].
  - left. unfold classify. rewrite H. reflexivity.
  - right. reflexivity.
Qed.

(** The chain resolves only for a status-200 response whose body was read,
    and then with the body or with the metadata object, as the comparison of
    [observe] with the request payload decides. *)
Lemma send_chain_resolved (options : Merged.t) (body : JsValue)
    (fetched : Settled Response.t) (v : JsValue) :
  send_chain options body fetched = Resolved v ->
  exists response data,
    fetched = Resolved response /\
    parseResponseBody (Merged.responseType options) response = Return (Resolved data) /\
    Response.status response = 200 /\
    v = if strict_eq_str (Merged.observe options) body then data
        else JObj (baseResponse response ++ [("body", data)]).
Proof.
  destruct fetched as [response | e].
  - destruct (parseResponseBody (Merged.responseType options) response)
      as [[data | e] | e] eqn:Hparse.
    + rewrite (send_chain_parsed _ _ _ _ Hparse).
      destruct (Z.eqb_spec (Response.status response) 200) as [E | E];
        [| discriminate].
      intros H. exists response, data. repeat split; auto.
      destruct (strict_eq_str (Merged.observe options) body);
        injection H as <-; reflexivity.
    + unfold send_chain. simpl. rewrite Hparse. simpl.
      destruct (truthy e && _); discriminate.
    + unfold send_chain. simpl. rewrite Hparse. simpl.
      destruct (truthy e && _); discriminate.
  - unfold send_chain. simpl. destruct (truthy e && _); discriminate.
Qed.

Lemma reads_body_parsed (options : Merged.t) (response : Response.t)
    (p : Settled JsValue) :
  parseResponseBody (Merged.responseType options) response = Return p ->
  reads_body options (Resolved response) = true.
Proof. intros H. unfold reads_body. now rewrite H. Qed.

Lemma reads_body_unknown (options : Merged.t) (fetched : Settled Response.t) :
  known_responseType (Merged.responseType options) = false ->
  reads_body options fetched = false.
Proof.
  intros H. destruct fetched as [response | e]; [| reflexivity].
  unfold reads_body. now rewrite (parseResponseBody_unknown _ response H).
Qed.

(** ** Request encoding *)

Lemma parseRequestBody_falsy (contentType : string) (body : JsValue) :
  truthy body = false -> parseRequestBody contentType body = Return JNull.
Proof. intros H. unfold parseRequestBody. now rewrite H. Qed.

Lemma parseRequestBody_unknown (contentType : string) (body : JsValue) :
  known_contentType contentType = false ->
  truthy body = true ->
  parseRequestBody contentType body =
    Throw (JError ("unknown contentType: " ++ contentType)).
Proof.
  unfold known_contentType. simpl. intros H Ht.
  repeat (apply orb_false_iff in H; destruct H as [? H]).
  unfold parseRequestBody. rewrite Ht. simpl.
  destruct (contentType =? "text")%string; [discriminate |].
  destruct (contentType =? "json")%string; [discriminate |].
  destruct (contentType =? "multipart")%string; [discriminate |].
  destruct (contentType =? "urlencoded")%string; [discriminate |].
  reflexivity.
Qed.

(** An exception of the body encoder is a plain [Error]. *)
Lemma parseRequestBody_throws (contentType : string) (body e : JsValue) :
  parseRequestBody contentType body = Throw e -> exists message, e = JError message.
Proof.
  unfold parseRequestBody.
  repeat match goal with
         | |- context [if ?c then _ else _] => destruct c
         end; intros H; inversion H; eauto.
Qed.

(** When [send] returns, [fetch] was called and the race was set up as
    written. *)
Lemma send_returns (method : HttpMethod) (url : string) (options : Merged.t)
    (body : JsValue) (r : Race) :
  send method url options body = Return r ->
  fetch_method (race_fetch r) = toUpperCase (HttpMethod_str method) /\
  race_chain r = send_chain options body /\
  race_reads_body r = reads_body options /\
  race_timer r = timeout (Merged.timeout options).
Proof.
  unfold send.
  destruct (parseRequestBody (Merged.contentType options) body); simpl.
  - intros H. injection H as <-. simpl. auto.
  - discriminate.
Qed.

Lemma send_null_body (method : HttpMethod) (url : string) (options : Merged.t) :
  exists r, send method url options JNull = Return r.
Proof.
  unfold send. rewrite parseRequestBody_falsy by reflexivity.
  simpl. eauto.
Qed.

(** ** The claims about the encoders and the option merger *)

(** C9: combining a base URL with the empty params mapping returns the URL
    unchanged, and combining it with the mapping [{a:1}], which the
    query-string codec serialises as [a=1], returns the URL followed by
    [?a=1]. *)
Theorem combineQueryStrings_empty_and_single (url : string)
    (Hqs : qs_stringify (JObj [("a", JNum 1)]) = "a=1") :
  combineQueryStrings url [] = url /\
  combineQueryStrings url [("a", JNum 1)] = url ++ "?a=1".
Proof.
  split.
  - reflexivity.
  - unfold combineQueryStrings. simpl. now rewrite Hqs.
Qed.


(** C8 (amended): under content type [text] every falsy payload, absent or
    present, yields no body ([null]), a truthy payload is passed through
    unchanged, and the empty string is never produced. *)
Theorem parseRequestBody_text (body : JsValue) :
  parseRequestBody "text" body = Return (if truthy body then body else JNull) /\
  parseRequestBody "text" body <> Return (JStr "").
Proof.
  unfold parseRequestBody, js_or. simpl.
  destruct (truthy body) eqn:Ht; simpl.
  - split; [reflexivity |]. intros H. injection H as ->. discriminate.
  - split; [reflexivity | discriminate].
Qed.

(** C6: every [patch] call that reaches the transport issues it with the
    method [PUT], not [PATCH]. *)
Theorem patch_issues_PUT (url : string) (body : JsValue)
    (options : RequestOptions.t) (r : Race)
    (Hcall : patch url body options = Return r) :
  fetch_method (race_fetch r) = "PUT" /\ fetch_method (race_fetch r) <> "PATCH".
Proof.
  unfold patch in Hcall. apply send_returns in Hcall.
  destruct Hcall as [Hm _]. rewrite Hm. simpl. split; [reflexivity | discriminate].
Qed.

(** ** The claims about the outcome of a call *)

(** C2 (amended): when the response arrives and its body is read
    successfully, both before the timer fires, the call resolves exactly when
    the status is 200; with any other status it rejects with the object
    tagged [httpErrorResponse] that holds the captured metadata and the
    parsed body as [error]. *)
Theorem send_resolves_iff_status_200 (method : HttpMethod) (url : string)
    (options : Merged.t) (body : JsValue) (r : Race) (response : Response.t)
    (data : JsValue) (events : list Event)
    (Hsend : send method url options body = Return r)
    (Hparse : parseResponseBody (Merged.responseType options) response
              = Return (Resolved data)) :
  let outcome := run_race r (FetchSettled (Resolved response) :: BodyRead :: events) in
  ((exists v, outcome = Done (Resolved v)) <-> Response.status response = 200) /\
  (Response.status response <> 200 ->
   outcome = Done (Rejected (JObj (baseResponse response ++
                 [("name", JStr "httpErrorResponse"); ("error", data)]))) /\
   classify (JObj (baseResponse response ++
                 [("name", JStr "httpErrorResponse"); ("error", data)]))
     = Some K_httpErrorResponse).
Proof.
  apply send_returns in Hsend. destruct Hsend as (_ & Hchain & Hreads & _).
  cbv zeta. rewrite race_response_then_body
    by (rewrite Hreads; exact (reads_body_parsed _ _ _ Hparse)).
  rewrite Hchain, (send_chain_parsed _ _ _ _ Hparse).
  destruct (Z.eqb_spec (Response.status response) 200) as [E | E].
  - split; [| intros H; contradiction].
    split; [intros _; exact E | intros _].
    destruct (strict_eq_str (Merged.observe options) body); eauto.
  - split.
    + split; [intros [v H]; discriminate | intros H; contradiction].
    + intros _. split; reflexivity.
Qed.

(** C3 (amended): when the timer fires before [fetch] settles, the call
    rejects with the timeout object, which is never what the chain settles
    with; once the whole chain has settled (the response has arrived and its
    body has been read, or nothing is left to read), the call is settled as
    the chain settled, and a settled call stays as it is whatever is
    delivered afterwards; a timer that fires
    while the body of an arrived response is still being read rejects the
    call with the timeout object. *)
Theorem race_first_settlement_wins (method : HttpMethod) (url : string)
    (options : Merged.t) (body : JsValue) (r : Race)
    (Hsend : send method url options body = Return r) :
  (forall events, run_race r (TimerFired :: events) = Done (Rejected timeout_envelope)) /\
  (forall fetched, race_chain r fetched <> Rejected timeout_envelope) /\
  (forall response events,
     reads_body options (Resolved response) = true ->
     run_race r (FetchSettled (Resolved response) :: BodyRead :: events)
     = Done (race_chain r (Resolved response))) /\
  (forall fetched events,
     reads_body options fetched = false ->
     run_race r (FetchSettled fetched :: events) = Done (race_chain r fetched)) /\
  (forall delivered s events,
     run_race r delivered = Done s ->
     run_race r (delivered ++ events)%list = Done s) /\
  (forall response events,
     reads_body options (Resolved response) = true ->
     run_race r (FetchSettled (Resolved response) :: TimerFired :: events)
     = Done (Rejected timeout_envelope)).
Proof.
  apply send_returns in Hsend. destruct Hsend as (_ & Hchain & Hreads & Htimer).
  repeat split.
  - intros events. unfold run_race. rewrite race_timer_wins. now rewrite Htimer.
  - intros fetched H. rewrite Hchain in H.
    apply send_chain_rejected_classified in H. destruct H as [H | H]; discriminate.
  - intros response events H. apply race_response_then_body. now rewrite Hreads.
  - intros fetched events H. apply race_fetch_settles. now rewrite Hreads.
  - intros delivered s events H. rewrite run_race_app, H. apply race_settled_stable.
  - intros response events H. unfold run_race. simpl.
    rewrite Hreads, H. simpl. rewrite race_settled_stable. now rewrite Htimer.
Qed.

(** C5 (amended): once the request has been issued, every failure rejects
    the promise with an object of exactly one of the three kinds, and none is
    swallowed: the promise resolves only for a status-200 response that was
    received and whose body was read.  A failure of the request-body encoder
    is instead thrown by the operation itself, as a plain [Error] that
    carries none of the three tags. *)
Theorem send_failures_classified (method : HttpMethod) (url : string)
    (options : Merged.t) (body : JsValue) (events : list Event) :
  match observe_call (send method url options body) events with
  | Return (Pending _) => True
  | Return (Done (Rejected e)) => exists k, classify e = Some k
  | Return (Done (Resolved v)) =>
      exists response data,
        In (FetchSettled (Resolved response)) events /\
        Response.status response = 200 /\
        parseResponseBody (Merged.responseType options) response
          = Return (Resolved data)
  | Throw e => (exists message, e = JError message) /\ classify e = None
  end.
Proof.
  unfold observe_call.
  destruct (send method url options body) as [r | e] eqn:Hsend; simpl.
  - destruct (run_race r events) as [reading | [v | e]] eqn:Hrun; [exact I | |];
      apply send_returns in Hsend; destruct Hsend as (_ & Hchain & _ & Htimer);
      apply run_race_done_origin in Hrun;
      destruct Hrun as [Hrun | (fetched & Hin & Hrun)].
    + discriminate.
    + rewrite Hchain in Hrun. apply send_chain_resolved in Hrun.
      destruct Hrun as (response & data & -> & Hparse & Hstatus & _).
      exists response, data. auto.
    + injection Hrun as ->. rewrite Htimer. exists K_timeout. reflexivity.
    + rewrite Hchain in Hrun.
      apply send_chain_rejected_classified in Hrun. destruct Hrun; eauto.
  - unfold send in Hsend.
    destruct (parseRequestBody (Merged.contentType options) body) as [b | e0] eqn:Hb;
      simpl in Hsend; [discriminate |].
    injection Hsend as <-.
    apply parseRequestBody_throws in Hb. destruct Hb as [message ->].
    split; [eauto | reflexivity].
Qed.

(** C4 (amended): an unknown content type makes the operation throw a
    descriptive [Error] before [fetch] is called only when the payload is
    truthy; with a falsy payload the request is issued.  An unknown response
    type never stops the request: it surfaces once the response has arrived,
    as a rejection of kind [networkError] that wraps the descriptive
    [Error]. *)
Theorem unknown_types_handling (method : HttpMethod) (url : string)
    (options : Merged.t) (body : JsValue) :
  (known_contentType (Merged.contentType options) = false ->
   if truthy body
   then send method url options body =
          Throw (JError ("unknown contentType: " ++ Merged.contentType options))
   else exists r, send method url options body = Return r /\
                  fetch_body (race_fetch r) = JNull) /\
  (known_responseType (Merged.responseType options) = false ->
   forall r response events,
     send method url options body = Return r ->
     run_race r (FetchSettled (Resolved response) :: events) =
       Done (Rejected (JObj [("name", JStr "networkError");
                             ("error", JError ("unknown responseType: "
                                               ++ Merged.responseType options))]))).
Proof.
  split.
  - intros Hct. destruct (truthy body) eqn:Ht.
    + unfold send. now rewrite (parseRequestBody_unknown _ _ Hct Ht).
    + unfold send. rewrite (parseRequestBody_falsy _ _ Ht). simpl. eauto.
  - intros Hrt r response events Hsend.
    apply send_returns in Hsend. destruct Hsend as (_ & Hchain & Hreads & _).
    rewrite race_fetch_settles
      by (rewrite Hreads; apply reads_body_unknown; exact Hrt).
    rewrite Hchain. now rewrite send_chain_unknown_responseType.
Qed.

(** [send] with a [null] payload, as [get] and [delete] call it: when the
    promise resolves, it resolves with the metadata object of a status-200
    response. *)
Lemma send_null_body_resolved (method : HttpMethod) (url : string)
    (options : Merged.t) (events : list Event) (v : JsValue) :
  observe_call (send method url options JNull) events = Return (Done (Resolved v)) ->
  exists response data,
    In (FetchSettled (Resolved response)) events /\
    Response.status response = 200 /\
    parseResponseBody (Merged.responseType options) response = Return (Resolved data) /\
    v = JObj (baseResponse response ++ [("body", data)]) /\
    v <> data.
Proof.
  destruct (send_null_body method url options) as [r Hr].
  rewrite Hr. unfold observe_call. simpl bind. intros H. injection H as H.
  apply send_returns in Hr. destruct Hr as (_ & Hchain & _ & _).
  apply run_race_done_origin in H.
  destruct H as [H | (fetched & Hin & H)]; [discriminate |].
  rewrite Hchain in H. apply send_chain_resolved in H.
  destruct H as (response & data & -> & Hparse & Hstatus & Hv).
  change (strict_eq_str (Merged.observe options) JNull) with false in Hv.
  subst v. exists response, data. repeat split; auto. apply obj_neq_last_prop.
Qed.

Lemma send_null_body_200 (method : HttpMethod) (url : string)
    (options : Merged.t) (response : Response.t) (data : JsValue)
    (events : list Event) :
  Response.status response = 200 ->
  parseResponseBody (Merged.responseType options) response = Return (Resolved data) ->
  observe_call (send method url options JNull)
    (FetchSettled (Resolved response) :: BodyRead :: events)
  = Return (Done (Resolved (JObj (baseResponse response ++ [("body", data)])))).
Proof.
  intros Hstatus Hparse.
  destruct (send_null_body method url options) as [r Hr].
  rewrite Hr. unfold observe_call. simpl bind.
  apply send_returns in Hr. destruct Hr as (_ & Hchain & Hreads & _).
  rewrite race_response_then_body
    by (rewrite Hreads; exact (reads_body_parsed _ _ _ Hparse)).
  rewrite Hchain, (send_chain_parsed _ _ _ _ Hparse), Hstatus. reflexivity.
Qed.

(** C10: a [get] or [delete] call that receives a status-200 response whose
    body is read before the timer fires resolves with the object holding the
    metadata fields [headers], [ok], [redirected], [status], [type] and [url]
    of the response and the parsed body as [body], never with the bare body,
    whatever the [observe] option says: these operations pass [null] as the
    request body.  More generally, whenever such a call resolves, it resolves
    with that object for a status-200 response it received. *)
Theorem get_delete_resolve_full_response (url : string)
    (options : RequestOptions.t) (response : Response.t) (data : JsValue)
    (events : list Event)
    (Hstatus : Response.status response = 200)
    (Hparse : parseResponseBody
                (Merged.responseType (spreadOptions defaultOptions options)) response
              = Return (Resolved data)) :
  let full :=
    JObj [("headers", Response.headers response);
          ("ok", JBool (Response.ok response));
          ("redirected", JBool (Response.redirected response));
          ("status", JNum 200);
          ("type", JStr (Response.type response));
          ("url", JStr (Response.url response));
          ("body", data)] in
  observe_call (get url options) (FetchSettled (Resolved response) :: BodyRead :: events)
    = Return (Done (Resolved full)) /\
  observe_call (delete url options) (FetchSettled (Resolved response) :: BodyRead :: events)
    = Return (Done (Resolved full)) /\
  full <> data /\
  (forall delivered v,
     observe_call (get url options) delivered = Return (Done (Resolved v)) \/
     observe_call (delete url options) delivered = Return (Done (Resolved v)) ->
     exists response' data',
       In (FetchSettled (Resolved response')) delivered /\
       Response.status response' = 200 /\
       parseResponseBody
         (Merged.responseType (spreadOptions defaultOptions options)) response'
         = Return (Resolved data') /\
       v = JObj [("headers", Response.headers response');
                 ("ok", JBool (Response.ok response'));
                 ("redirected", JBool (Response.redirected response'));
                 ("status", JNum 200);
                 ("type", JStr (Response.type response'));
                 ("url", JStr (Response.url response'));
                 ("body", data')] /\
       v <> data').
Proof.
  cbv zeta. unfold get, delete. rewrite <- Hstatus at 1 2 3. repeat split.
  - now apply send_null_body_200.
  - now apply send_null_body_200.
  - exact (obj_neq_last_prop (baseResponse response) "body" data).
  - intros delivered v [H | H]; apply send_null_body_resolved in H;
      destruct H as (response' & data' & Hin & Hs & Hp & Hv & Hne);
      exists response', data'; rewrite <- Hs at 2; auto.
Qed.

(** C1 (the code at the failing input): [get] with [observe: 'body'] and a
    status-200 response resolves with the metadata object, not with the body
    alone, and [post] of the payload ['response'] with [observe: 'response']
    resolves with the body alone. *)
Theorem observe_compared_with_payload :
  observe_call
    (get sample_url (RequestOptions.make None None (Some "body") None None None))
    [FetchSettled (Resolved (sample_response 200)); BodyRead]
  = Return (Done (Resolved (JObj (baseResponse (sample_response 200)
                                   ++ [("body", JObj [("id", JNum 7)])])))) /\
  observe_call
    (post sample_url (JStr "response")
       (RequestOptions.make None None (Some "response") (Some "text") None None))
    [FetchSettled (Resolved (sample_response 200)); BodyRead]
  = Return (Done (Resolved (JObj [("id", JNum 7)]))).
Proof. split; reflexivity. Qed.

(** * Further properties of the pipeline *)

(** ** Object literals and strings *)

Lemma lookup_set_prop_same (k : string) (v : JsValue) (o : Record_) :
  lookup k (set_prop k v o) = Some v.
Proof.
  induction o as [| [k' v'] o IH]; simpl.
  - now rewrite String.eqb_refl.
  - destruct (k =? k')%string eqn:E; simpl.
    + now rewrite String.eqb_refl.
    + now rewrite E.
Qed.

Lemma lookup_set_prop_other (k k' : string) (v : JsValue) (o : Record_) :
  k' <> k -> lookup k' (set_prop k v o) = lookup k' o.
Proof.
  intros Hne. apply String.eqb_neq in Hne.
  induction o as [| [k1 v1] o IH]; simpl.
  - now rewrite Hne.
  - destruct (String.eqb_spec k k1) as [<- | Hk]; simpl.
    + now rewrite Hne.
    + now rewrite IH.
Qed.

Lemma set_prop_fresh (k : string) (v : JsValue) (o : Record_) :
  ~ In k (map fst o) -> set_prop k v o = (o ++ [(k, v)])%list.
Proof.
  induction o as [| [k' v'] o IH]; simpl; intros H; [reflexivity |].
  destruct (String.eqb_spec k k') as [-> | Hk].
  - exfalso. apply H. now left.
  - rewrite IH; [reflexivity |]. intros Hin. apply H. now right.
Qed.

Lemma keys_set_prop (k k' : string) (v : JsValue) (o : Record_) :
  In k' (map fst (set_prop k v o)) -> k' = k \/ In k' (map fst o).
Proof.
  induction o as [| [k1 v1] o IH]; simpl.
  - intros [H | []]. now left.
  - destruct (String.eqb_spec k k1) as [<- | Hk]; simpl.
    + intros [H | H]; [left; now subst | right; now right].
    + intros [H | H]; [right; now left |].
      destruct (IH H) as [H1 | H1]; [now left | right; now right].
Qed.

(** Spreading an object whose keys are distinct and new appends it. *)
Lemma spread_fresh (a b : Record_) :
  NoDup (map fst (a ++ b)%list) -> spread a b = (a ++ b)%list.
Proof.
  unfold spread. revert a.
  induction b as [| [k v] b IH]; intros a H; simpl.
  - now rewrite app_nil_r.
  - assert (Hk : ~ In k (map fst a)).
    { rewrite map_app in H. simpl in H. apply NoDup_remove_2 in H.
      intros Hin. apply H. apply in_or_app. now left. }
    rewrite (set_prop_fresh _ _ _ Hk).
    rewrite IH; rewrite <- app_assoc; [reflexivity | exact H].
Qed.

Lemma append_nonempty_neq (a b : string) : b <> "" -> a ++ b <> a.
Proof.
  intros Hb H. induction a as [| c a IH]; simpl in H.
  - contradiction.
  - injection H as H. now apply IH.
Qed.

Lemma prefix_append (a b : string) : String.prefix a (a ++ b) = true.
Proof.
  induction a as [| c a IH]; simpl.
  - now destruct b.
  - destruct (ascii_dec c c) as [_ | Hc]; [exact IH | contradiction].
Qed.

Lemma prefix_refl (a : string) : String.prefix a a = true.
Proof.
  induction a as [| c a IH]; simpl; [reflexivity |].
  destruct (ascii_dec c c) as [_ | Hc]; [exact IH | contradiction].
Qed.

Lemma strict_eq_str_false (s : string) (v : JsValue) :
  v <> JStr s -> strict_eq_str s v = false.
Proof.
  intros H. destruct (strict_eq_str s v) eqn:E; [| reflexivity].
  apply strict_eq_str_true in E. contradiction.
Qed.

(** A value whose [name] is a string is an object or an [Error]: it is
    truthy. *)
Lemma named_is_truthy (err : JsValue) (s : string) :
  get_prop err "name" = JStr s -> truthy err = true.
Proof. destruct err; simpl; intros H; try discriminate; reflexivity. Qed.

(** ** Headers *)

(** X1: the composed headers always hold a [Content-Type] entry, also over a
    [Content-Type] of the caller; its value is fixed by the content type, and
    it is [plain/text] for [text] and for every unrecognised content type. *)
Theorem mergeHeaders_content_type_wins (headers : Record_) (contentType : string) :
  exists v,
    lookup "Content-Type" (mergeHeaders headers contentType) = Some (JStr v) /\
    (contentType = "json" -> v = "application/json") /\
    (contentType = "multipart" -> v = "multipart/form-data") /\
    (contentType = "urlencoded" -> v = "application/x-www-urlencoded") /\
    (contentType = "text" -> v = "plain/text") /\
    (known_contentType contentType = false -> v = "plain/text").
Proof.
  unfold mergeHeaders. cbv zeta. eexists. split.
  - apply lookup_set_prop_same.
  - repeat split; intros H; try (subst contentType; reflexivity).
    unfold known_contentType in H. simpl in H.
    repeat (apply orb_false_iff in H; destruct H as [? H]).
    destruct (contentType =? "json")%string; [discriminate |].
    destruct (contentType =? "multipart")%string; [discriminate |].
    destruct (contentType =? "urlencoded")%string; [discriminate |].
    reflexivity.
Qed.

(** X2: for caller headers with distinct keys, every header other than
    [Content-Type] reaches the request with the caller's value, and nothing
    else is added. *)
Theorem mergeHeaders_keeps_caller_headers (headers : Record_) (contentType : string)
    (Hkeys : NoDup (map fst headers)) :
  (forall k, k <> "Content-Type" ->
     lookup k (mergeHeaders headers contentType) = lookup k headers) /\
  (forall k, In k (map fst (mergeHeaders headers contentType)) ->
     k = "Content-Type" \/ In k (map fst headers)).
Proof.
  unfold mergeHeaders. cbv zeta.
  rewrite (spread_fresh [] headers Hkeys). simpl app.
  match goal with |- context [set_prop _ ?x _] => generalize x end.
  intros v. split.
  - intros k Hk. now apply lookup_set_prop_other.
  - intros k. apply keys_set_prop.
Qed.

(** ** Encoders *)

(** X3: for every content type other than [json] and [urlencoded], whose
    outcome is the codec's, the request-body encoder throws exactly for a
    truthy payload that is either not a [FormData] under [multipart] or
    paired with an unrecognised content type; in every other case it
    returns. *)
Theorem parseRequestBody_throws_iff (contentType : string) (body : JsValue)
    (Hjson : contentType <> "json")
    (Hurlencoded : contentType <> "urlencoded") :
  (exists e, parseRequestBody contentType body = Throw e) <->
  truthy body = true /\
  ((contentType = "multipart" /\ instanceof_FormData body = false) \/
   known_contentType contentType = false).
Proof.
  unfold parseRequestBody, known_contentType. simpl existsb.
  destruct (truthy body) eqn:Ht; simpl negb; cbv iota.
  2: { split; [intros [e H]; discriminate | intros [H _]; discriminate]. }
  destruct (String.eqb_spec contentType "text") as [-> | Htext].
  { simpl. split; [intros [e H]; discriminate |].
    intros [_ [[H _] | H]]; discriminate. }
  destruct (String.eqb_spec contentType "json") as [-> | _]; [contradiction |].
  destruct (String.eqb_spec contentType "multipart") as [-> | Hmulti].
  { simpl. destruct (instanceof_FormData body); simpl.
    - split; [intros [e H]; discriminate |].
      intros [_ [[_ H] | H]]; discriminate.
    - split; [intros _; auto | intros _; eauto]. }
  destruct (String.eqb_spec contentType "urlencoded") as [-> | _]; [contradiction |].
  simpl. split; [intros _; auto | intros _; eauto].
Qed.

(** X4: the response-body reader throws exactly for an unrecognised response
    type; for a recognised one it hands back the promise of one of the three
    readers of the response, and the two others play no part. *)
Theorem parseResponseBody_throws_iff (responseType : string) (response : Response.t) :
  ((exists e, parseResponseBody responseType response = Throw e) <->
   known_responseType responseType = false) /\
  (responseType = "json" ->
   parseResponseBody responseType response = Return (Response.json response)) /\
  (responseType = "text" ->
   parseResponseBody responseType response = Return (Response.text response)) /\
  (responseType = "blob" ->
   parseResponseBody responseType response = Return (Response.blob response)).
Proof.
  split; [| repeat split; intros ->; reflexivity].
  split.
  - intros [e H]. destruct (known_responseType responseType) eqn:Hk; [| reflexivity].
    unfold known_responseType in Hk. simpl in Hk. unfold parseResponseBody in H.
    destruct (responseType =? "json")%string; [discriminate |].
    destruct (responseType =? "text")%string; [discriminate |].
    destruct (responseType =? "blob")%string; [discriminate | discriminate].
  - intros H. rewrite (parseResponseBody_unknown _ response H). eauto.
Qed.

(** X5: the URL builder returns the base URL unchanged exactly when there
    are no params; in every case the base URL is a prefix of the result. *)
Theorem combineQueryStrings_unchanged_iff (url : string) (params : Record_) :
  (combineQueryStrings url params = url <-> params = []) /\
  String.prefix url (combineQueryStrings url params) = true.
Proof.
  unfold combineQueryStrings. destruct params as [| kv params]; simpl.
  - split; [split; reflexivity |].
    apply prefix_refl.
  - split; [| apply prefix_append].
    split; [| discriminate].
    intros H. exfalso. revert H. apply append_nonempty_neq. discriminate.
Qed.

(** ** Failures of the transport and of the body readers *)

(** What the [catch] handler of the chain makes of a rejection. *)
Lemma send_chain_fetch_rejected (options : Merged.t) (body err : JsValue) :
  send_chain options body (Rejected err) =
    Rejected (if truthy err && strict_eq_str "httpErrorResponse" (get_prop err "name")
              then err
              else JObj [("name", JStr "networkError"); ("error", err)]).
Proof.
  unfold send_chain. simpl.
  now destruct (truthy err && strict_eq_str "httpErrorResponse" (get_prop err "name")).
Qed.

Lemma send_chain_body_rejected (options : Merged.t) (body : JsValue)
    (response : Response.t) (e : JsValue) :
  parseResponseBody (Merged.responseType options) response = Return (Rejected e) ->
  send_chain options body (Resolved response) =
    Rejected (if truthy e && strict_eq_str "httpErrorResponse" (get_prop e "name")
              then e
              else JObj [("name", JStr "networkError"); ("error", e)]).
Proof.
  intros H. unfold send_chain. simpl. rewrite H. simpl.
  now destruct (truthy e && strict_eq_str "httpErrorResponse" (get_prop e "name")).
Qed.

Lemma not_tagged_http_error (err : JsValue) :
  get_prop err "name" <> JStr "httpErrorResponse" ->
  truthy err && strict_eq_str "httpErrorResponse" (get_prop err "name") = false.
Proof.
  intros H. rewrite (strict_eq_str_false _ _ H). apply andb_false_r.
Qed.

Lemma tagged_http_error (err : JsValue) :
  get_prop err "name" = JStr "httpErrorResponse" ->
  truthy err && strict_eq_str "httpErrorResponse" (get_prop err "name") = true.
Proof.
  intros H. rewrite (named_is_truthy _ _ H), H. reflexivity.
Qed.

(** The request [send] hands to [fetch], and the timer it starts. *)
Lemma send_request (method : HttpMethod) (url : string) (options : Merged.t)
    (body : JsValue) (r : Race) :
  send method url options body = Return r ->
  exists b,
    parseRequestBody (Merged.contentType options) body = Return b /\
    race_fetch r =
      {| fetch_input := combineQueryStrings url (Merged.params options);
         fetch_method := toUpperCase (HttpMethod_str method);
         fetch_body := b;
         fetch_headers := mergeHeaders (Merged.headers options)
                            (Merged.contentType options) |} /\
    timer_delay (race_timer r) = Merged.timeout options.
Proof.
  unfold send.
  destruct (parseRequestBody (Merged.contentType options) body) as [b | e]; simpl.
  - intros H. injection H as <-. exists b. auto.
  - discriminate.
Qed.

(** X6: when [fetch] itself fails, the call rejects with the [networkError]
    object that carries the failure unchanged as [error], for every failure
    that is not itself named [httpErrorResponse]. *)
Theorem transport_failure_rejects_networkError (method : HttpMethod) (url : string)
    (options : Merged.t) (body : JsValue) (r : Race) (err : JsValue)
    (events : list Event)
    (Hsend : send method url options body = Return r)
    (Hname : get_prop err "name" <> JStr "httpErrorResponse") :
  run_race r (FetchSettled (Rejected err) :: events)
  = Done (Rejected (JObj [("name", JStr "networkError"); ("error", err)])).
Proof.
  apply send_returns in Hsend. destruct Hsend as (_ & Hchain & Hreads & _).
  rewrite race_fetch_settles by (now rewrite Hreads).
  rewrite Hchain, send_chain_fetch_rejected.
  now rewrite (not_tagged_http_error _ Hname).
Qed.

(** X7: a failure of [fetch] that is already named [httpErrorResponse] is
    rethrown as it is: the caller receives it as an HTTP error although no
    response was classified. *)
Theorem transport_failure_named_http_error_passes (method : HttpMethod) (url : string)
    (options : Merged.t) (body : JsValue) (r : Race) (err : JsValue)
    (events : list Event)
    (Hsend : send method url options body = Return r)
    (Hname : get_prop err "name" = JStr "httpErrorResponse") :
  run_race r (FetchSettled (Rejected err) :: events) = Done (Rejected err) /\
  classify err = Some K_httpErrorResponse.
Proof.
  apply send_returns in Hsend. destruct Hsend as (_ & Hchain & Hreads & _).
  rewrite race_fetch_settles by (now rewrite Hreads).
  rewrite Hchain, send_chain_fetch_rejected, (tagged_http_error _ Hname).
  split; [reflexivity |]. unfold classify. now rewrite Hname.
Qed.

(** X8: when the body reader fails, the call rejects without a look at the
    status of the response: with the [networkError] object that carries the
    reader's failure when that failure is not itself named
    [httpErrorResponse], and with the failure as it is when it is so named.
    A response with a status other than 200 whose body cannot be read is
    thus not reported with the [httpErrorResponse] object of its metadata. *)
Theorem body_read_failure_rejects_networkError (method : HttpMethod) (url : string)
    (options : Merged.t) (body : JsValue) (r : Race) (response : Response.t)
    (e : JsValue) (events : list Event)
    (Hsend : send method url options body = Return r)
    (Hparse : parseResponseBody (Merged.responseType options) response
              = Return (Rejected e)) :
  let outcome := run_race r (FetchSettled (Resolved response) :: BodyRead :: events) in
  (get_prop e "name" <> JStr "httpErrorResponse" ->
   outcome = Done (Rejected (JObj [("name", JStr "networkError"); ("error", e)]))) /\
  (get_prop e "name" = JStr "httpErrorResponse" ->
   outcome = Done (Rejected e)).
Proof.
  apply send_returns in Hsend. destruct Hsend as (_ & Hchain & Hreads & _).
  cbv zeta. rewrite race_response_then_body
    by (rewrite Hreads; exact (reads_body_parsed _ _ _ Hparse)).
  rewrite Hchain, (send_chain_body_rejected _ _ _ _ Hparse).
  split; intros Hname.
  - now rewrite (not_tagged_http_error _ Hname).
  - now rewrite (tagged_http_error _ Hname).
Qed.

(** ** What a successful call resolves with *)

(** X9: for options whose [observe] is a string, a call answered by a
    status-200 response whose body is read before the timer fires resolves
    with the bare parsed body exactly when the request payload is that same
    string; for every other payload it resolves with the object of the six
    metadata fields and the parsed body as [body]. *)
Theorem bare_body_iff_payload_is_observe (method : HttpMethod) (url : string)
    (options : Merged.t) (body : JsValue) (r : Race) (response : Response.t)
    (data : JsValue) (events : list Event)
    (Hsend : send method url options body = Return r)
    (Hstatus : Response.status response = 200)
    (Hparse : parseResponseBody (Merged.responseType options) response
              = Return (Resolved data)) :
  let outcome := run_race r (FetchSettled (Resolved response) :: BodyRead :: events) in
  let full :=
    JObj [("headers", Response.headers response);
          ("ok", JBool (Response.ok response));
          ("redirected", JBool (Response.redirected response));
          ("status", JNum 200);
          ("type", JStr (Response.type response));
          ("url", JStr (Response.url response));
          ("body", data)] in
  (body = JStr (Merged.observe options) -> outcome = Done (Resolved data)) /\
  (body <> JStr (Merged.observe options) -> outcome = Done (Resolved full)) /\
  (outcome = Done (Resolved data) <-> body = JStr (Merged.observe options)).
Proof.
  apply send_returns in Hsend. destruct Hsend as (_ & Hchain & Hreads & _).
  intros outcome full.
  assert (Hfull : full = JObj (baseResponse response ++ [("body", data)])).
  { subst full. unfold baseResponse. simpl. now rewrite Hstatus. }
  rewrite Hfull. clear Hfull full. subst outcome.
  rewrite race_response_then_body
    by (rewrite Hreads; exact (reads_body_parsed _ _ _ Hparse)).
  rewrite Hchain, (send_chain_parsed _ _ _ _ Hparse), Hstatus.
  change (200 =? 200) with true. cbv iota.
  assert (Hyes : body = JStr (Merged.observe options) ->
                 strict_eq_str (Merged.observe options) body = true).
  { intros ->. simpl. apply String.eqb_refl. }
  assert (Hno : body <> JStr (Merged.observe options) ->
                strict_eq_str (Merged.observe options) body = false).
  { apply strict_eq_str_false. }
  repeat split.
  - intros H. now rewrite (Hyes H).
  - intros H. now rewrite (Hno H).
  - destruct (strict_eq_str (Merged.observe options) body) eqn:E.
    + intros _. now apply strict_eq_str_true in E.
    + intros H. injection H as H. exfalso.
      exact (obj_neq_last_prop (baseResponse response) "body" data H).
  - intros H. now rewrite (Hyes H).
Qed.

(** ** The requests of the public operations *)

(** X10: [get] and [delete] pass [null] as payload, for which the
    request-body encoder returns [null] under every content type ([multipart]
    and unrecognised ones included), so these operations never raise its
    errors.  Whenever they issue the request, it has no body and the method
    [GET] or [DELETE]; for the same arguments both issue the same URL and
    headers, attach the same chain and start the same timer. *)
Theorem get_delete_send_no_body (url : string) (options : RequestOptions.t) :
  (forall contentType, parseRequestBody contentType JNull = Return JNull) /\
  (forall rg, get url options = Return rg ->
     fetch_method (race_fetch rg) = "GET" /\ fetch_body (race_fetch rg) = JNull) /\
  (forall rd, delete url options = Return rd ->
     fetch_method (race_fetch rd) = "DELETE" /\ fetch_body (race_fetch rd) = JNull) /\
  (forall rg rd,
     get url options = Return rg ->
     delete url options = Return rd ->
     fetch_input (race_fetch rg) = fetch_input (race_fetch rd) /\
     fetch_headers (race_fetch rg) = fetch_headers (race_fetch rd) /\
     race_chain rg = race_chain rd /\
     race_timer rg = race_timer rd).
Proof.
  assert (Hnull : forall contentType, parseRequestBody contentType JNull = Return JNull).
  { intros contentType. now apply parseRequestBody_falsy. }
  unfold get, delete, send. rewrite Hnull. simpl.
  repeat split; try apply Hnull; intros;
    repeat match goal with
           | H : Return _ = Return _ |- _ => injection H as <-
           end; reflexivity.
Qed.

(** X11: [post] and [put] treat the same arguments alike: either both throw
    the same exception, or both issue the same URL, body and headers, attach
    the same chain and start the same timer, with the methods [POST] and
    [PUT]. *)
Theorem post_put_same_request (url : string) (body : JsValue)
    (options : RequestOptions.t) :
  match post url body options, put url body options with
  | Return rp, Return rq =>
      fetch_method (race_fetch rp) = "POST" /\
      fetch_method (race_fetch rq) = "PUT" /\
      fetch_input (race_fetch rp) = fetch_input (race_fetch rq) /\
      fetch_body (race_fetch rp) = fetch_body (race_fetch rq) /\
      fetch_headers (race_fetch rp) = fetch_headers (race_fetch rq) /\
      race_chain rp = race_chain rq /\
      race_timer rp = race_timer rq
  | Throw e1, Throw e2 => e1 = e2
  | _, _ => False
  end.
Proof.
  unfold post, put, send.
  destruct (parseRequestBody
              (Merged.contentType (spreadOptions defaultOptions options)) body);
    simpl; repeat split.
Qed.

(** X12: with no option given, whenever [post] issues its request, [fetch]
    is called with the URL as it is, the method [POST] and
    [Content-Type: application/json] as the only header, and a timer of
    30000 ms is started; a falsy payload is sent as no body. *)
Theorem post_with_defaults (url : string) (body : JsValue) (r : Race)
    (Hcall : post url body RequestOptions.empty = Return r) :
  fetch_input (race_fetch r) = url /\
  fetch_method (race_fetch r) = "POST" /\
  fetch_headers (race_fetch r) = [("Content-Type", JStr "application/json")] /\
  timer_delay (race_timer r) = 30000 /\
  (truthy body = false -> fetch_body (race_fetch r) = JNull).
Proof.
  unfold post in Hcall. apply send_request in Hcall.
  destruct Hcall as (b & Hb & Hreq & Htimer).
  rewrite Hreq, Htimer. simpl. repeat split.
  intros Hfalsy. rewrite parseRequestBody_falsy in Hb by exact Hfalsy.
  now injection Hb as <-.
Qed.

(** X13: under [urlencoded], a non-empty mapping used both as params and as
    payload is serialised once and the same way: the text after [?] in the
    URL is the text of the body. *)
Theorem urlencoded_body_matches_query (method : HttpMethod) (url : string)
    (options : Merged.t) (p : Record_)
    (Hct : Merged.contentType options = "urlencoded")
    (Hparams : Merged.params options = p)
    (Hne : p <> []) :
  exists r text,
    send method url options (JObj p) = Return r /\
    fetch_input (race_fetch r) = url ++ "?" ++ text /\
    fetch_body (race_fetch r) = JStr text.
Proof.
  unfold send, parseRequestBody, combineQueryStrings. rewrite Hct, Hparams. simpl.
  destruct p as [| kv p]; [contradiction |]. simpl.
  do 2 eexists. repeat split.
Qed.

(** X14: under [multipart], a request that is issued carries no body or the
    caller's [FormData] itself, never anything else, and its [Content-Type]
    is [multipart/form-data] whatever the caller's headers say. *)
Theorem multipart_body_is_form_or_null (method : HttpMethod) (url : string)
    (options : Merged.t) (body : JsValue) (r : Race)
    (Hct : Merged.contentType options = "multipart")
    (Hsend : send method url options body = Return r) :
  (fetch_body (race_fetch r) = JNull /\ truthy body = false \/
   fetch_body (race_fetch r) = body /\ instanceof_FormData body = true) /\
  lookup "Content-Type" (fetch_headers (race_fetch r))
    = Some (JStr "multipart/form-data").
Proof.
  apply send_request in Hsend. destruct Hsend as (b & Hb & Hreq & _).
  rewrite Hreq. simpl. rewrite Hct in *. split.
  - unfold parseRequestBody in Hb. simpl in Hb.
    destruct (truthy body); simpl in Hb.
    + destruct (instanceof_FormData body); simpl in Hb; [| discriminate].
      injection Hb as <-. right. auto.
    + injection Hb as <-. left. auto.
  - unfold mergeHeaders. simpl. apply lookup_set_prop_same.
Qed.

End Client.

(** * The claims at concrete inputs *)

(** The reference codec serialises [{a:1}] as [a=1], so the URL builder
    appends [?a=1]. *)
Lemma combineQueryStrings_sample :
  qs_text (JObj [("a", JNum 1)]) = "a=1" /\
  combineQueryStrings qs_text sample_url [] = sample_url /\
  combineQueryStrings qs_text sample_url [("a", JNum 1)]
    = "http://example.test/items?a=1".
Proof.
  split; [reflexivity |].
  apply (combineQueryStrings_empty_and_single qs_text sample_url). reflexivity.
Defined.


(** The empty string is falsy, so under [text] it is encoded as no body. *)
Lemma parseRequestBody_text_empty_string :
  truthy (JStr "") = false /\
  parseRequestBody json_text qs_text "text" (JStr "") = Return JNull /\
  JNull <> JStr "".
Proof. repeat split. discriminate. Qed.

Lemma patch_sample :
  exists r,
    patch json_text qs_text sample_url (JObj [("id", JNum 7)]) RequestOptions.empty
      = Return r /\
    fetch_method (race_fetch r) = "PUT".
Proof.
  eexists. split; [reflexivity |].
  eapply proj1, (patch_issues_PUT json_text qs_text sample_url
                   (JObj [("id", JNum 7)]) RequestOptions.empty).
  reflexivity.
Defined.

(** A 404 response whose body is read before the timer fires rejects with the
    [httpErrorResponse] object. *)
Lemma send_404_sample :
  exists r,
    send json_text qs_text M_post sample_url defaultOptions (JObj [("id", JNum 7)])
      = Return r /\
    run_race r [FetchSettled (Resolved (sample_response 404)); BodyRead; TimerFired]
      = Done (Rejected (JObj (baseResponse (sample_response 404) ++
                                [("name", JStr "httpErrorResponse");
                                 ("error", JObj [("id", JNum 7)])]))).
Proof.
  eexists. split; [reflexivity |].
  eapply proj1, (proj2 (send_resolves_iff_status_200 json_text qs_text M_post sample_url
                  defaultOptions (JObj [("id", JNum 7)]) _ (sample_response 404)
                  (JObj [("id", JNum 7)]) [TimerFired] eq_refl eq_refl)).
  discriminate.
Defined.

(** The response has arrived with status 200 and its body parse succeeds, but
    the timer fires while the body is being read: the call is not a success,
    it rejects with the timeout object. *)
Lemma timer_during_body_read_200 :
  exists r,
    send json_text qs_text M_post sample_url defaultOptions (JObj [("id", JNum 7)])
      = Return r /\
    Response.status (sample_response 200) = 200 /\
    parseResponseBody (Merged.responseType defaultOptions) (sample_response 200)
      = Return (Resolved (JObj [("id", JNum 7)])) /\
    run_race r [FetchSettled (Resolved (sample_response 200)); TimerFired; BodyRead]
      = Done (Rejected timeout_envelope).
Proof. eexists. repeat split. Qed.

Lemma race_sample :
  exists r,
    send json_text qs_text M_get sample_url defaultOptions JNull = Return r /\
    run_race r [TimerFired; FetchSettled (Resolved (sample_response 200)); BodyRead]
      = Done (Rejected timeout_envelope) /\
    run_race r [FetchSettled (Resolved (sample_response 200)); BodyRead; TimerFired]
      = Done (race_chain r (Resolved (sample_response 200))).
Proof.
  eexists. split; [reflexivity |].
  destruct (race_first_settlement_wins json_text qs_text M_get sample_url
              defaultOptions JNull _ eq_refl) as (Htimer & _ & Hbody & _).
  split; [apply Htimer | apply Hbody; reflexivity].
Defined.

(** [fetch] settles first, yet the timer that fires afterwards, while the
    body is being read, changes the outcome of the call from the response to
    the timeout object. *)
Lemma timer_after_fetch_changes_outcome :
  exists r,
    send json_text qs_text M_get sample_url defaultOptions JNull = Return r /\
    run_race r [FetchSettled (Resolved (sample_response 200)); BodyRead]
      = Done (Resolved (JObj (baseResponse (sample_response 200)
                                ++ [("body", JObj [("id", JNum 7)])]))) /\
    run_race r [FetchSettled (Resolved (sample_response 200)); TimerFired; BodyRead]
      = Done (Rejected timeout_envelope).
Proof. eexists. repeat split. Qed.

(** Unknown types at work: thrown for a truthy payload, and a network error
    after the response for the response type. *)
Lemma unknown_types_sample :
  send json_text qs_text M_post sample_url
    (Merged.make [] [] "body" "xml" "json" 30000) (JStr "payload")
    = Throw (JError "unknown contentType: xml") /\
  exists r,
    send json_text qs_text M_post sample_url
      (Merged.make [] [] "body" "text" "xml" 30000) (JStr "payload") = Return r /\
    run_race r [FetchSettled (Resolved (sample_response 200)); TimerFired]
      = Done (Rejected (JObj [("name", JStr "networkError");
                              ("error", JError "unknown responseType: xml")])).
Proof.
  split.
  - apply (proj1 (unknown_types_handling json_text qs_text M_post sample_url
                    (Merged.make [] [] "body" "xml" "json" 30000) (JStr "payload"))).
    reflexivity.
  - eexists. split; [reflexivity |].
    apply (proj2 (unknown_types_handling json_text qs_text M_post sample_url
                    (Merged.make [] [] "body" "text" "xml" 30000) (JStr "payload")));
      reflexivity.
Defined.

(** Neither an unknown content type nor an unknown response type keeps [get]
    or [post] from calling [fetch]. *)
Lemma unknown_types_reach_fetch :
  known_contentType "xml" = false /\
  known_responseType "xml" = false /\
  (exists r,
     get json_text qs_text sample_url
       (RequestOptions.make None None None (Some "xml") None None) = Return r /\
     fetch_input (race_fetch r) = sample_url) /\
  (exists r,
     post json_text qs_text sample_url (JStr "payload")
       (RequestOptions.make None None None (Some "text") (Some "xml") None) = Return r /\
     fetch_body (race_fetch r) = JStr "payload").
Proof.
  repeat split; eexists; split; reflexivity.
Qed.

(** A [multipart] call with a payload that is not a [FormData] fails by
    throwing from [post] itself: no promise is rejected, and the thrown
    [Error] carries none of the three tags. *)
Lemma multipart_failure_is_thrown :
  observe_call
    (post json_text qs_text sample_url (JStr "payload")
       (RequestOptions.make None None None (Some "multipart") None None))
    [FetchSettled (Resolved (sample_response 200)); BodyRead; TimerFired]
  = Throw (JError "require a FormData instance when content type is multipart") /\
  classify (JError "require a FormData instance when content type is multipart") = None.
Proof. split; reflexivity. Qed.

Lemma get_delete_sample :
  Response.status (sample_response 200) = 200 /\
  observe_call
    (get json_text qs_text sample_url
       (RequestOptions.make None None (Some "body") None None None))
    [FetchSettled (Resolved (sample_response 200)); BodyRead; TimerFired]
  = Return (Done (Resolved
      (JObj [("headers", JObj [("content-type", JStr "application/json")]);
             ("ok", JBool true);
             ("redirected", JBool false);
             ("status", JNum 200);
             ("type", JStr "basic");
             ("url", JStr "http://example.test/items");
             ("body", JObj [("id", JNum 7)])]))).
Proof.
  split; [reflexivity |].
  eapply proj1, (get_delete_resolve_full_response json_text qs_text sample_url
                   (RequestOptions.make None None (Some "body") None None None)
                   (sample_response 200) (JObj [("id", JNum 7)]) [TimerFired]);
    reflexivity.
Defined.

(** * The further properties at concrete inputs *)

Lemma mergeHeaders_sample :
  lookup "Accept"
    (mergeHeaders [("Accept", JStr "text/html"); ("Content-Type", JStr "text/csv")] "json")
  = Some (JStr "text/html").
Proof.
  assert (H : NoDup (map fst [("Accept", JStr "text/html");
                              ("Content-Type", JStr "text/csv")])).
  { repeat constructor; simpl; intuition discriminate. }
  rewrite (proj1 (mergeHeaders_keeps_caller_headers _ "json" H) "Accept");
    [reflexivity | discriminate].
Defined.

Lemma transport_failure_sample :
  exists r,
    send json_text qs_text M_get sample_url defaultOptions JNull = Return r /\
    run_race r [FetchSettled (Rejected (JError "Failed to fetch")); TimerFired]
    = Done (Rejected (JObj [("name", JStr "networkError");
                            ("error", JError "Failed to fetch")])).
Proof.
  eexists. split; [reflexivity |].
  apply (transport_failure_rejects_networkError json_text qs_text M_get sample_url
           defaultOptions JNull _ (JError "Failed to fetch") [TimerFired] eq_refl).
  discriminate.
Defined.

Lemma transport_failure_named_sample :
  exists r,
    send json_text qs_text M_get sample_url defaultOptions JNull = Return r /\
    run_race r [FetchSettled (Rejected (JObj [("name", JStr "httpErrorResponse")]))]
    = Done (Rejected (JObj [("name", JStr "httpErrorResponse")])).
Proof.
  eexists. split; [reflexivity |].
  eapply proj1, (transport_failure_named_http_error_passes json_text qs_text M_get
                   sample_url defaultOptions JNull _
                   (JObj [("name", JStr "httpErrorResponse")]) [] eq_refl).
  reflexivity.
Defined.

(** A multipart payload that is not a [FormData]. *)
Lemma parseRequestBody_throws_sample :
  exists e, parseRequestBody json_text qs_text "multipart" (JStr "payload") = Throw e.
Proof.
  apply (parseRequestBody_throws_iff json_text qs_text "multipart" (JStr "payload"));
    [discriminate | discriminate |].
  split; [reflexivity | left; split; reflexivity].
Defined.

(** A 404 response whose JSON body cannot be parsed. *)
Lemma body_read_failure_sample :
  exists r,
    send json_text qs_text M_get sample_url defaultOptions JNull = Return r /\
    run_race r
      [FetchSettled
         (Resolved (Response.make JNull false false 404 "basic" sample_url
                      (Rejected (JError "Unexpected end of JSON input"))
                      (Resolved (JStr "")) (Resolved (JBlob 0))));
       BodyRead]
    = Done (Rejected (JObj [("name", JStr "networkError");
                            ("error", JError "Unexpected end of JSON input")])).
Proof.
  eexists. split; [reflexivity |].
  apply (proj1 (body_read_failure_rejects_networkError json_text qs_text M_get
           sample_url defaultOptions JNull _
           (Response.make JNull false false 404 "basic" sample_url
              (Rejected (JError "Unexpected end of JSON input"))
              (Resolved (JStr "")) (Resolved (JBlob 0)))
           (JError "Unexpected end of JSON input") [] eq_refl eq_refl)).
  discriminate.
Defined.

(** [get] under [multipart]: the request is issued, without a body. *)
Lemma get_delete_no_body_sample :
  exists rg,
    get json_text qs_text sample_url
      (RequestOptions.make None None None (Some "multipart") None None) = Return rg /\
    fetch_method (race_fetch rg) = "GET" /\
    fetch_body (race_fetch rg) = JNull.
Proof.
  eexists. split; [reflexivity |].
  apply (proj1 (proj2 (get_delete_send_no_body json_text qs_text sample_url
           (RequestOptions.make None None None (Some "multipart") None None)))).
  reflexivity.
Defined.

Lemma bare_body_sample :
  exists r,
    send json_text qs_text M_post sample_url defaultOptions (JStr "body") = Return r /\
    run_race r [FetchSettled (Resolved (sample_response 200)); BodyRead]
    = Done (Resolved (JObj [("id", JNum 7)])).
Proof.
  eexists. split; [reflexivity |].
  apply (proj1 (bare_body_iff_payload_is_observe json_text qs_text M_post sample_url
           defaultOptions (JStr "body") _ (sample_response 200)
           (JObj [("id", JNum 7)]) [] eq_refl eq_refl eq_refl)).
  reflexivity.
Defined.

Lemma post_with_defaults_sample :
  exists r,
    post json_text qs_text sample_url (JObj [("id", JNum 7)]) RequestOptions.empty
      = Return r /\
    fetch_input (race_fetch r) = sample_url /\
    fetch_method (race_fetch r) = "POST" /\
    fetch_headers (race_fetch r) = [("Content-Type", JStr "application/json")] /\
    timer_delay (race_timer r) = 30000.
Proof.
  eexists. split; [reflexivity |].
  destruct (post_with_defaults json_text qs_text sample_url (JObj [("id", JNum 7)])
              _ eq_refl) as (Hi & Hm & Hh & Ht & _).
  repeat split; assumption.
Defined.

Lemma urlencoded_sample :
  exists r text,
    send json_text qs_text M_post sample_url
      (Merged.make [] [("a", JNum 1)] "body" "urlencoded" "json" 30000)
      (JObj [("a", JNum 1)]) = Return r /\
    fetch_input (race_fetch r) = sample_url ++ "?" ++ text /\
    fetch_body (race_fetch r) = JStr text.
Proof.
  apply (urlencoded_body_matches_query json_text qs_text M_post sample_url
           (Merged.make [] [("a", JNum 1)] "body" "urlencoded" "json" 30000)
           [("a", JNum 1)]); [reflexivity | reflexivity | discriminate].
Defined.

Lemma multipart_sample :
  exists r,
    send json_text qs_text M_post sample_url
      (Merged.make [("Content-Type", JStr "text/csv")] [] "body" "multipart" "json" 30000)
      (JFormData 1) = Return r /\
    lookup "Content-Type" (fetch_headers (race_fetch r))
      = Some (JStr "multipart/form-data").
Proof.
  eexists. split; [reflexivity |].
  eapply proj2, (multipart_body_is_form_or_null json_text qs_text M_post sample_url
                   (Merged.make [("Content-Type", JStr "text/csv")] [] "body"
                      "multipart" "json" 30000) (JFormData 1)); reflexivity.
Defined.
